(** * Resume coach backend: chunking, classification, retrieval, analysis cache

    A shallow embedding of the Python backend (pdf_utils.py, vector_store.py,
    coach_logic.py, db.py, main.py) and the properties its specification
    states about it.

    Conventions.
    - A Python [str] is a [string]; a character is one [ascii] (the text is
      taken to be ASCII, so [len] counts bytes).
    - Python integers are [Z]; slicing follows Python's rules for negative
      and out-of-range bounds.
    - Dictionaries with string keys are [gmap string _]; parsed JSON objects
      keep their members as an association list.
    - Calls to hosted services (generative model, embedding model, vector
      index, relational store) are recorded in a log carried by the state;
      what a model answers is an input of the request. *)

From Stdlib Require Import ZArith List Ascii String Bool Lia QArith.
From Stdlib Require Import Sorting.Permutation Sorting.Sorted.
From Stdlib Require Import Floats.PrimFloat.
From stdpp Require Import base option gmap strings fin_maps pretty.

Import ListNotations.
Set Warnings "-register-all".
Local Open Scope string_scope.
Local Open Scope list_scope.
Local Open Scope Z_scope.

(** ** Python strings *)

Definition str_len (s : string) : Z := Z.of_nat (String.length s).

Fixpoint str_take (n : nat) (s : string) : string :=
  match n, s with
  | O, _ => EmptyString
  | S _, EmptyString => EmptyString
  | S n', String c s' => String c (str_take n' s')
  end.

Fixpoint str_drop (n : nat) (s : string) : string :=
  match n, s with
  | O, _ => s
  | S _, EmptyString => EmptyString
  | S n', String _ s' => str_drop n' s'
  end.

(** Python's normalisation of one slice bound against a length:
    a negative bound counts from the end, and everything is clamped. *)
Definition clamp_index (len i : Z) : Z :=
  if i <? 0 then Z.max 0 (i + len) else Z.min i len.

(** [text[lo:hi]] *)
Definition py_slice (s : string) (lo hi : Z) : string :=
  let n := str_len s in
  let a := clamp_index n lo in
  let b := clamp_index n hi in
  str_take (Z.to_nat (b - a)) (str_drop (Z.to_nat a) s).

(** [text[lo:]] *)
Definition py_slice_from (s : string) (lo : Z) : string :=
  str_drop (Z.to_nat (clamp_index (str_len s) lo)) s.

(** [text[:hi]] *)
Definition py_slice_to (s : string) (hi : Z) : string :=
  str_take (Z.to_nat (clamp_index (str_len s) hi)) s.

(** Characters Python's [str.isspace] accepts, within ASCII. *)
Definition py_isspace (c : ascii) : bool :=
  let n := nat_of_ascii c in
  ((9 <=? n)%nat && (n <=? 13)%nat) || ((28 <=? n)%nat && (n <=? 32)%nat).

Fixpoint lstrip (s : string) : string :=
  match s with
  | EmptyString => EmptyString
  | String c s' => if py_isspace c then lstrip s' else s
  end.

(** [rstrip] keeps a character when it is not a space or when something
    is left after it. *)
Fixpoint rstrip (s : string) : string :=
  match s with
  | EmptyString => EmptyString
  | String c s' =>
      match rstrip s' with
      | EmptyString => if py_isspace c then EmptyString else String c EmptyString
      | r => String c r
      end
  end.

(** [s.strip()] *)
Definition strip (s : string) : string := rstrip (lstrip s).

Definition upper_char (c : ascii) : ascii :=
  let n := nat_of_ascii c in
  if ((97 <=? n)%nat && (n <=? 122)%nat)%bool then ascii_of_nat (n - 32) else c.

Definition lower_char (c : ascii) : ascii :=
  let n := nat_of_ascii c in
  if ((65 <=? n)%nat && (n <=? 90)%nat)%bool then ascii_of_nat (n + 32) else c.

Fixpoint str_map (f : ascii -> ascii) (s : string) : string :=
  match s with
  | EmptyString => EmptyString
  | String c s' => String (f c) (str_map f s')
  end.

(** [s.upper()], [s.lower()] *)
Definition upper : string -> string := str_map upper_char.
Definition lower : string -> string := str_map lower_char.

Fixpoint startswith (p s : string) : bool :=
  match p, s with
  | EmptyString, _ => true
  | String _ _, EmptyString => false
  | String a p', String b s' => if Ascii.eqb a b then startswith p' s' else false
  end.

(** [needle in hay] *)
Fixpoint py_in (needle hay : string) : bool :=
  startswith needle hay ||
  match hay with
  | EmptyString => false
  | String _ hay' => py_in needle hay'
  end.

(** [s.endswith(suffix)] *)
Definition endswith (s suffix : string) : bool :=
  let n := String.length s in
  let k := String.length suffix in
  (k <=? n)%nat && String.eqb (str_drop (n - k) s) suffix.

(** Truthiness of a string: [if text:]  *)
Definition nonempty (s : string) : bool :=
  match s with EmptyString => false | _ => true end.

(** ** Exceptions *)

Inductive exn : Type :=
  | ValueError
  | AttributeError
  | TypeError.

Inductive result (A : Type) : Type :=
  | Ok (a : A)
  | Raise (e : exn).
Arguments Ok {A} a.
Arguments Raise {A} e.

(** ** pdf_utils.py *)

(** [extract_text_from_pdf]: the pages are what the PDF library yields for
    the bytes, or the exception it raises on bytes that are no PDF. *)
Definition extract_text_from_pdf (pages : result (list string)) : result string :=
  match pages with
  | Ok ps => Ok (strip (String.concat "" ps))
  | Raise e => Raise e
  end.

(** The [while] loop of [chunk_text]; [None] when the fuel runs out before
    the loop condition fails. *)
Fixpoint chunk_loop (fuel : nat) (text : string) (chunk_size overlap : Z)
    (start : Z) (chunks : list string) : option (list string) :=
  match fuel with
  | O => None
  | S fuel' =>
      if start <? str_len text then
        let end_ := start + chunk_size in
        let chunk := py_slice text start end_ in
        chunk_loop fuel' text chunk_size overlap (end_ - overlap) (chunks ++ [chunk])
      else Some chunks
  end.

Definition chunk_text_fuel (fuel : nat) (text : string) (chunk_size overlap : Z)
  : option (list string) :=
  chunk_loop fuel text chunk_size overlap 0 [].

(** [chunk_text(text)] with the default [chunk_size=500, overlap=50]; the
    fuel is one more than the length, which is enough (see
    [chunk_text_default_fuel]). *)
Definition chunk_text (text : string) : list string :=
  match chunk_text_fuel (S (String.length text)) text 500 50 with
  | Some chunks => chunks
  | None => []
  end.

Definition truncation_marker : string :=
  String "010" (String "010" "... [TRUNCATED] ...") +:+ String "010" (String "010" "").

(** The document text placed in the prompt. *)
Definition text_for_llm (text : string) : string :=
  if 12000 <? str_len text
  then py_slice_to text 8000 +:+ truncation_marker +:+ py_slice_from text (-4000)
  else text.

(** The spec's reassembly: the first chunk, then every later chunk without
    its leading [overlap] characters. *)
Definition reassemble (overlap : Z) (chunks : list string) : string :=
  match chunks with
  | [] => ""
  | c :: cs => c +:+ String.concat "" (map (fun c' => py_slice_from c' overlap) cs)
  end.

(** ** JSON values as [json.loads] produces them *)

Inductive json : Type :=
  | JNull
  | JBool (b : bool)
  | JInt (n : Z)
  | JFloat (f : float)
  | JStr (s : string)
  | JArr (items : list json)
  | JObj (members : list (string * json)).

(** A Python dict with string keys, in insertion order. *)
Definition dict : Type := list (string * json).

Fixpoint dict_get (k : string) (d : dict) : option json :=
  match d with
  | [] => None
  | (k', v) :: d' => if String.eqb k k' then Some v else dict_get k d'
  end.

Definition dict_keys (d : dict) : list string := map fst d.

(** Python truthiness, as [x or default] tests it. *)
Definition py_truthy (j : json) : bool :=
  match j with
  | JNull => false
  | JBool b => b
  | JInt n => negb (n =? 0)
  | JFloat f => negb (PrimFloat.eqb f 0%float)
  | JStr s => nonempty s
  | JArr items => match items with [] => false | _ => true end
  | JObj members => match members with [] => false | _ => true end
  end.

(** [x or y] *)
Definition py_or (x y : json) : json := if py_truthy x then x else y.

(** [s.index(c)] and [s.rindex(c)]; [None] stands for [ValueError]. *)
Fixpoint str_index (c : ascii) (s : string) : option nat :=
  match s with
  | EmptyString => None
  | String a s' =>
      if Ascii.eqb a c then Some O
      else match str_index c s' with
           | Some i => Some (S i)
           | None => None
           end
  end.

Fixpoint str_rindex (c : ascii) (s : string) : option nat :=
  match s with
  | EmptyString => None
  | String a s' =>
      match str_rindex c s' with
      | Some i => Some (S i)
      | None => if Ascii.eqb a c then Some O else None
      end
  end.

(** ** coach_logic.py: parsing the analysis *)

(** [extract_name_from_resume]: the first line that is not blank, stripped. *)
Fixpoint split_on (sep : ascii) (cur : string) (s : string) : list string :=
  match s with
  | EmptyString => [String.rev cur]
  | String c s' =>
      if Ascii.eqb c sep then String.rev cur :: split_on sep EmptyString s'
      else split_on sep (String c cur) s'
  end.

Definition newline : ascii := "010"%char.

Fixpoint first_nonblank (lines : list string) : option string :=
  match lines with
  | [] => None
  | line :: rest =>
      let line' := strip line in
      if nonempty line' then Some line' else first_nonblank rest
  end.

Definition extract_name_from_resume (text : string) : string :=
  match first_nonblank (split_on newline EmptyString text) with
  | Some line => line
  | None => "there"
  end.

(** The inner helper [get2(obj, snake, camel, default)]:
    [obj.get(snake) if snake in obj else obj.get(camel, default)].
    On a list or a string [in] succeeds and [.get] does not exist; on
    [None], a bool or a number [in] itself fails. *)
Definition get2 (obj : json) (snake camel : string) (default : json) : result json :=
  match obj with
  | JObj d =>
      match dict_get snake d with
      | Some v => Ok v
      | None =>
          match dict_get camel d with
          | Some v => Ok v
          | None => Ok default
          end
      end
  | JArr _ | JStr _ => Raise AttributeError
  | JNull | JBool _ | JInt _ | JFloat _ => Raise TypeError
  end.

#[global] Instance result_ret : MRet result := fun A a => Ok a.
#[global] Instance result_bind : MBind result := fun A B k r =>
  match r with
  | Ok a => k a
  | Raise e => Raise e
  end.

(** The result returned when the model gives no text. *)
Definition empty_analysis : dict :=
  [ ("overall_score", JNull);
    ("score_label", JStr "");
    ("top_skills", JArr []);
    ("role_fit", JArr []);
    ("experience_level", JStr "");
    ("years_experience", JNull);
    ("project_count", JNull);
    ("companies_count", JNull);
    ("gaps", JArr []);
    ("quick_wins", JArr []) ].

(** The ten fixed fields. *)
Definition analysis_fields : list string :=
  [ "overall_score"; "score_label"; "top_skills"; "role_fit";
    "experience_level"; "years_experience"; "project_count";
    "companies_count"; "gaps"; "quick_wins" ].

(** The fields with the two spellings of their key and their default. *)
Definition field_table : list (string * string * json) :=
  [ ("overall_score", "overallScore", JNull);
    ("score_label", "scoreLabel", JStr "");
    ("top_skills", "topSkills", JArr []);
    ("role_fit", "roleFit", JArr []);
    ("experience_level", "experienceLevel", JStr "");
    ("years_experience", "yearsExperience", JNull);
    ("project_count", "projectCount", JNull);
    ("companies_count", "companiesCount", JNull);
    ("gaps", "gaps", JArr []);
    ("quick_wins", "quickWins", JArr []) ].

(** The text handed to [json.loads]: from the first brace to the last one,
    or the whole answer when [index]/[rindex] raise [ValueError]. *)
Definition isolate_json (raw : string) : string :=
  match str_index "{"%char raw, str_rindex "}"%char raw with
  | Some start, Some last =>
      py_slice raw (Z.of_nat start) (Z.of_nat last + 1)
  | _, _ => raw
  end.

(** The dict literal built from the parsed [data]. *)
Definition build_analysis (data : json) : result dict :=
  overall_score ← get2 data "overall_score" "overallScore" JNull;
  score_label ← get2 data "score_label" "scoreLabel" (JStr "");
  top_skills ← get2 data "top_skills" "topSkills" (JArr []);
  role_fit ← get2 data "role_fit" "roleFit" (JArr []);
  experience_level ← get2 data "experience_level" "experienceLevel" (JStr "");
  years_experience ← get2 data "years_experience" "yearsExperience" JNull;
  project_count ← get2 data "project_count" "projectCount" JNull;
  companies_count ← get2 data "companies_count" "companiesCount" JNull;
  gaps ← get2 data "gaps" "gaps" (JArr []);
  quick_wins ← get2 data "quick_wins" "quickWins" (JArr []);
  Ok [ ("overall_score", overall_score);
       ("score_label", score_label);
       ("top_skills", py_or top_skills (JArr []));
       ("role_fit", py_or role_fit (JArr []));
       ("experience_level", experience_level);
       ("years_experience", years_experience);
       ("project_count", project_count);
       ("companies_count", companies_count);
       ("gaps", py_or gaps (JArr []));
       ("quick_wins", py_or quick_wins (JArr [])) ].

(** What [analyze_resume] computes from [resp.text] on a cache miss;
    [json_loads] is Python's [json.loads], [None] when it raises. *)
Definition analysis_of_response (json_loads : string -> option json)
    (resp_text : option string) : result dict :=
  let raw := strip (match resp_text with Some t => t | None => "" end) in
  if negb (nonempty raw) then Ok empty_analysis
  else
    let raw_json := isolate_json raw in
    let data := match json_loads raw_json with
                | Some d => d
                | None => JObj []
                end in
    build_analysis data.

(** ** Vector index data (vector_store.py, config.py) *)

(** One condition of a metadata filter: [{"k": v}] or [{"k": {"$in": vs}}]. *)
Inductive cond : Type :=
  | CEq (v : string)
  | CIn (vs : list string).

Record scored_match : Type := {
  m_id : string;
  score : Q;
  metadata : gmap string string
}.

Record item (vector : Type) : Type := {
  item_id : string;
  item_values : vector;
  item_metadata : gmap string string
}.
Arguments item_id {vector} _.
Arguments item_values {vector} _.
Arguments item_metadata {vector} _.

(** [m.metadata.get("text", "")] *)
Definition match_text (m : scored_match) : string :=
  match metadata m !! "text" with
  | Some t => t
  | None => ""
  end.

(** [sorted(matches, key=lambda m: m.score, reverse=True)]: a stable sort,
    equal scores keep the order they came in. *)
Fixpoint insert_desc (x : scored_match) (l : list scored_match) : list scored_match :=
  match l with
  | [] => [x]
  | y :: l' =>
      if Qle_bool (score y) (score x) then x :: l
      else y :: insert_desc x l'
  end.

Fixpoint sorted_desc (l : list scored_match) : list scored_match :=
  match l with
  | [] => []
  | x :: l' => insert_desc x (sorted_desc l')
  end.

(** Descending order of scores. *)
Definition desc (a b : scored_match) : Prop := (score b <= score a)%Q.

(** The texts returned for the matches of the last query. *)
Definition texts_of (res : list scored_match) : list string :=
  match res with
  | [] => []
  | _ => map match_text (sorted_desc res)
  end.

(** What a filter asks of a metadata dict: every key of the filter is
    present and meets its condition. *)
Definition cond_holds (c : cond) (v : option string) : bool :=
  match c, v with
  | CEq x, Some y => String.eqb x y
  | CIn xs, Some y => existsb (String.eqb y) xs
  | _, None => false
  end.

Definition filter_holds (flt : gmap string cond) (md : gmap string string) : bool :=
  bool_decide (map_Forall (fun k c => cond_holds c (md !! k) = true) flt).

Definition passes (flt : option (gmap string cond)) (md : gmap string string) : bool :=
  match flt with
  | None => true
  | Some f => filter_holds f md
  end.

(** An index honours its filters when every match it returns for a
    filtered query satisfies the filter. *)
Definition honours_filters {vector index_t : Type}
    (index_query : index_t -> vector -> nat -> option (gmap string cond) ->
                   list scored_match) : Prop :=
  forall idx vec top_k f m,
    In m (index_query idx vec top_k (Some f)) -> filter_holds f (metadata m) = true.

(** ** Calls to the outside *)

(** Each call is logged with what it was asked; an index query also with
    the matches it answered. *)

Inductive prompt : Type :=
  | ClassifyPrompt (document : string)
  | AnalysisPrompt (resume_text : string)
  | ReplyPrompt (user_name resume_context coach_context user_message : string).

Inductive event : Type :=
  | EvGenerate (p : prompt)
  | EvEmbed (texts : list string)
  | EvQuery (top_k : nat) (flt : option (gmap string cond)) (matches : list scored_match)
  | EvUpsert (ids : list string)
  | EvAnalyzeResume (text : string)
  | EvGetResumeAnalysis (resume_hash : string)
  | EvSaveResumeAnalysis (resume_hash : string)
  | EvSaveUserName (file_id : string)
  | EvGetUserName (file_id : string).

Definition is_model_call (e : event) : bool :=
  match e with
  | EvGenerate _ | EvEmbed _ => true
  | _ => false
  end.

Definition is_generate (e : event) : bool :=
  match e with
  | EvGenerate _ => true
  | _ => false
  end.

Definition is_query (e : event) : bool :=
  match e with
  | EvQuery _ _ _ => true
  | _ => false
  end.

(** A call of [analyze_resume], or the generative call it makes. *)
Definition is_analysis_call (e : event) : bool :=
  match e with
  | EvAnalyzeResume _ => true
  | EvGenerate (AnalysisPrompt _) => true
  | _ => false
  end.

(** ** main.py data *)

Inductive analysis_value : Type :=
  | ANone
  | ADict (d : dict)
  | AStr (s : string).

Record upload_response : Type := {
  r_file_id : string;
  r_greeting : string;
  r_analysis : analysis_value
}.

(** An upload: the file name, what the PDF library reads from the bytes,
    and the identifier [uuid.uuid4()] draws for it. *)
Record upload_file : Type := {
  filename : string;
  pages : result (list string);
  uuid4 : string
}.

Record ChatRequest : Type := {
  user_message : string;
  file_id : string
}.

Definition msg_no_file_id : string :=
  "Please upload a valid resume in PDF format before we start chatting. 🙂".

Definition msg_no_resume : string :=
  "I couldn't find any valid resume content linked to this chat." +:+
  String newline (String newline
  "👉 Please upload your actual resume in **PDF format** and then try asking your question again.") +:+
  String newline
  "Right now it looks like you might have uploaded a random or non-resume PDF. 🙂".

Definition msg_not_a_resume : string :=
  "I could not detect this file as a proper resume. " +:+
  "Please upload a clear resume PDF for best results.".

Definition greeting_default : string :=
  "Hi there! I’ve loaded your file. " +:+
  "This isn’t a resume, please upload that next.".

Definition greeting_for (user_name : string) : string :=
  "Hi " +:+ user_name +:+ "! I’ve analyzed your resume. " +:+
  "Ask me anything—STAR stories, interview prep, project explanations, LinkedIn summary—" +:+
  "I'm your personal career coach now.".

(** [sep.join(parts)] *)
Definition join (sep : string) (parts : list string) : string :=
  String.concat sep parts.

(** ** The backend over its services *)

Section Backend.

(** The embedding model, the vector index and the library functions the
    code calls. *)
Context {vector index_t : Type}.
Variable embed_content : list string -> list vector.
Variable index_query :
  index_t -> vector -> nat -> option (gmap string cond) -> list scored_match.
Variable index_upsert : index_t -> list (item vector) -> index_t.
Variable sha256_hexdigest : string -> string.
Variable py_hash : string -> Z.
Variable json_loads : string -> option json.

(** Everything that outlives a request: the two tables of db.py, the
    module-level [_ANALYSIS_CACHE], the index, and the calls made so far
    (latest last). *)
Record world : Type := {
  sessions : gmap string string;
  resumes : gmap string (dict * string);
  ANALYSIS_CACHE : gmap Z dict;
  index : index_t;
  calls : list event
}.

(** A computation may change the world and may raise. *)
Definition M (A : Type) : Type := world -> result A * world.

#[local] Instance M_ret : MRet M := fun A a w => (Ok a, w).
#[local] Instance M_bind : MBind M := fun A B k m w =>
  match m w with
  | (Ok a, w') => k a w'
  | (Raise e, w') => (Raise e, w')
  end.

(** The world after some more calls. *)
Definition add_calls (w : world) (evs : list event) : world :=
  {| sessions := sessions w; resumes := resumes w;
     ANALYSIS_CACHE := ANALYSIS_CACHE w; index := index w;
     calls := calls w ++ evs |}.

Definition record (e : event) : M unit := fun w => (Ok tt, add_calls w [e]).

Definition lift {A} (r : result A) : M A := fun w => (r, w).

Definition get_world : M world := fun w => (Ok w, w).

(** [try: m  except Exception: handler] *)
Definition try_except {A} (m : M A) (handler : A) : M A := fun w =>
  match m w with
  | (Ok a, w') => (Ok a, w')
  | (Raise _, w') => (Ok handler, w')
  end.

(** *** pdf_utils.py, with the model *)

Definition is_probable_resume (llm : prompt -> option string) (text : string)
  : M bool :=
  if negb (nonempty text) then mret false
  else if str_len text <? 300 then mret false
  else if 60000 <? str_len text then mret false
  else
    let p := ClassifyPrompt (text_for_llm text) in
    _ ← record (EvGenerate p);
    match llm p with
    | None => lift (Raise AttributeError)
    | Some response_text =>
        let raw := upper (strip response_text) in
        if py_in "YES" raw && negb (py_in "NO" raw) then mret true
        else if py_in "NO" raw && negb (py_in "YES" raw) then mret false
        else mret false
    end.

(** *** vector_store.py *)

Definition embed_texts (texts : list string) : M (list vector) :=
  match texts with
  | [] => mret []
  | _ => _ ← record (EvEmbed texts); mret (embed_content texts)
  end.

Definition upsert_vectors (items : list (item vector)) : M unit :=
  match items with
  | [] => mret tt
  | _ => fun w =>
      (Ok tt, {| sessions := sessions w; resumes := resumes w;
                 ANALYSIS_CACHE := ANALYSIS_CACHE w;
                 index := index_upsert (index w) items;
                 calls := calls w ++ [EvUpsert (map item_id items)] |})
  end.

(** [index.query(vector=vec, top_k=top_k, include_metadata=True, filter=flt)] *)
Definition query_index (vec : vector) (top_k : nat)
    (flt : option (gmap string cond)) : M (list scored_match) :=
  w ← get_world;
  let matches := index_query (index w) vec top_k flt in
  _ ← record (EvQuery top_k flt matches);
  mret matches.

(** The filter built from [doc_types] and [file_id]. *)
Definition build_filter (doc_types : list string) (file_id : option string)
  : gmap string cond :=
  let filter_dict : gmap string cond := ∅ in
  let filter_dict :=
    match doc_types with
    | [] => filter_dict
    | [d] => <["doc_type" := CEq d]> filter_dict
    | _ => <["doc_type" := CIn doc_types]> filter_dict
    end in
  match file_id with
  | Some f => if nonempty f then <["file_id" := CEq f]> filter_dict else filter_dict
  | None => filter_dict
  end.

(** [x or None] on a filter dict *)
Definition filter_or_none (filter_dict : gmap string cond)
  : option (gmap string cond) :=
  if decide (filter_dict = ∅) then None else Some filter_dict.

Definition truthy_id (file_id : option string) : bool :=
  match file_id with
  | Some f => nonempty f
  | None => false
  end.

Definition is_nil {A} (l : list A) : bool :=
  match l with [] => true | _ => false end.

Definition retrieve_texts (query : string) (top_k : nat)
    (doc_types : list string) (file_id : option string)
    (allow_fallback : bool) : M (list string) :=
  vecs ← embed_texts [query];
  match vecs with
  | [] => mret []
  | vec :: _ =>
      let filter_arg := filter_or_none (build_filter doc_types file_id) in
      res ← query_index vec top_k filter_arg;
      res ← (if allow_fallback && is_nil res && truthy_id file_id
                && negb (is_nil doc_types)
             then
               match doc_types with
               | d0 :: _ =>
                   let fallback_filter : gmap string cond :=
                     {[ "doc_type" := CEq d0 ]} in
                   query_index vec top_k (Some fallback_filter)
               | [] => mret res
               end
             else mret res);
      match res with
      | [] => mret []
      | _ => mret (map match_text (sorted_desc res))
      end
  end.

(** *** db.py *)

Definition save_user_name (file_id user_name : string) : M unit := fun w =>
  (Ok tt, {| sessions := <[file_id := user_name]> (sessions w);
             resumes := resumes w;
             ANALYSIS_CACHE := ANALYSIS_CACHE w; index := index w;
             calls := calls w ++ [EvSaveUserName file_id] |}).

Definition get_user_name (file_id : string) : M (option string) :=
  _ ← record (EvGetUserName file_id);
  w ← get_world;
  mret (sessions w !! file_id).

(** The [analysis_json] column holds [json.dumps] of the analysis and is
    read back with [json.loads]; the row is kept here as the value the
    pair of them yields. *)
Definition get_resume_analysis (resume_hash : string)
  : M (option dict * option string) :=
  _ ← record (EvGetResumeAnalysis resume_hash);
  w ← get_world;
  match resumes w !! resume_hash with
  | None => mret (None, None)
  | Some (analysis, model_name) => mret (Some analysis, Some model_name)
  end.

Definition save_resume_analysis (resume_hash : string) (analysis_obj : dict)
    (model_name : string) : M unit := fun w =>
  (Ok tt, {| sessions := sessions w;
             resumes := <[resume_hash := (analysis_obj, model_name)]> (resumes w);
             ANALYSIS_CACHE := ANALYSIS_CACHE w; index := index w;
             calls := calls w ++ [EvSaveResumeAnalysis resume_hash] |}).

(** *** coach_logic.py *)

Definition cache_store (cache_key : Z) (result : dict) : M unit := fun w =>
  (Ok tt, {| sessions := sessions w; resumes := resumes w;
             ANALYSIS_CACHE := <[cache_key := result]> (ANALYSIS_CACHE w);
             index := index w; calls := calls w |}).

Definition cache_lookup (cache_key : Z) : M (option dict) :=
  w ← get_world;
  mret (ANALYSIS_CACHE w !! cache_key).

Definition analyze_resume (llm : prompt -> option string) (text : string)
  : M dict :=
  _ ← record (EvAnalyzeResume text);
  let cache_key := py_hash text in
  cached ← cache_lookup cache_key;
  match cached with
  | Some result => mret result
  | None =>
      let p := AnalysisPrompt text in
      _ ← record (EvGenerate p);
      result ← lift (analysis_of_response json_loads (llm p));
      _ ← cache_store cache_key result;
      mret result
  end.

Definition generate_reply (llm : prompt -> option string)
    (user_message : string) (resume_chunks coach_chunks : list string)
    (user_name : string) : M (option string) :=
  let resume_context :=
    if is_nil resume_chunks then "No resume context found."
    else join (String newline (String newline "")) resume_chunks in
  let coach_context :=
    if is_nil coach_chunks then "No coach Q&A context found."
    else join (String newline (String newline "")) coach_chunks in
  let p := ReplyPrompt user_name resume_context coach_context user_message in
  _ ← record (EvGenerate p);
  mret (llm p).

(** *** main.py *)

Definition chunk_metadata (file_id chunk : string) : gmap string string :=
  <["file_id" := file_id]> (<["text" := chunk]> {[ "doc_type" := "resume_chunk" ]}).

(** The items built by the loop over [enumerate(zip(vectors, chunks))]. *)
Definition resume_items (file_id : string) (vectors : list vector)
    (chunks : list string) : list (item vector) :=
  imap (fun (i : nat) (vc : vector * string) =>
          {| item_id := file_id +:+ "-" +:+ pretty i;
             item_values := vc.1;
             item_metadata := chunk_metadata file_id vc.2 |})
       (zip vectors chunks).

(** The [text] variable of [upload_resume]: extracted only from a PDF,
    empty when the extraction raises. *)
Definition upload_text (file : upload_file) : string :=
  let is_pdf := endswith (lower (filename file)) ".pdf" in
  if is_pdf then
    match extract_text_from_pdf (pages file) with
    | Ok t => t
    | Raise _ => ""
    end
  else "".

(** The [is_valid_resume] variable. *)
Definition classify_upload (llm : prompt -> option string) (file : upload_file)
  : M bool :=
  let is_pdf := endswith (lower (filename file)) ".pdf" in
  let text := upload_text file in
  if is_pdf && nonempty (strip text)
  then try_except (is_probable_resume llm text) false
  else mret false.

(** The [resume_hash] variable:
    [hashlib.sha256(text.encode("utf-8")).hexdigest()], or [None]. *)
Definition resume_hash_of (text : string) : option string :=
  if nonempty (strip text) then Some (sha256_hexdigest text) else None.

(** Step 1 of a valid upload: chunk, embed, upsert. *)
Definition index_chunks (file_id text : string) : M unit :=
  let chunks := chunk_text text in
  if is_nil chunks then mret tt
  else
    vectors ← embed_texts chunks;
    if is_nil vectors then mret tt
    else upsert_vectors (resume_items file_id vectors chunks).

(** Step 3 of a valid upload: the cached analysis when the hash has one,
    else a fresh analysis, stored under the hash. *)
Definition cached_or_analyze (llm : prompt -> option string) (text : string)
    (resume_hash : option string) : M dict :=
  cached ← match resume_hash with
           | Some h => get_resume_analysis h
           | None => mret (None, None)
           end;
  match cached.1 with
  | Some cached_analysis => mret cached_analysis
  | None =>
      analysis ← analyze_resume llm text;
      let model_name := "resume-coach-llm" in
      _ ← match resume_hash with
          | Some h => save_resume_analysis h analysis model_name
          | None => mret tt
          end;
      mret analysis
  end.

Definition upload_resume (llm : prompt -> option string) (file : upload_file)
  : M upload_response :=
  let file_id := uuid4 file in
  let text := upload_text file in
  is_valid_resume ← classify_upload llm file;
  let resume_hash := resume_hash_of text in
  if (is_valid_resume : bool) then
    _ ← index_chunks file_id text;
    let user_name :=
      let n := extract_name_from_resume text in
      if nonempty n then n else "there" in
    _ ← save_user_name file_id user_name;
    analysis ← cached_or_analyze llm text resume_hash;
    mret {| r_file_id := file_id;
            r_greeting := greeting_for user_name;
            r_analysis := ADict analysis |}
  else
    mret {| r_file_id := file_id;
            r_greeting := greeting_default;
            r_analysis := AStr msg_not_a_resume |}.

(** [ChatResponse(response=...)] rejects a value that is no string. *)
Definition ChatResponse (response : option string) : M string :=
  match response with
  | Some s => mret s
  | None => lift (Raise ValueError)
  end.

Definition chat (llm : prompt -> option string) (payload : ChatRequest)
  : M string :=
  if negb (nonempty (file_id payload)) then ChatResponse (Some msg_no_file_id)
  else
    resume_chunks ← retrieve_texts (user_message payload) 5 ["resume_chunk"]
                      (Some (file_id payload)) false;
    if is_nil resume_chunks then ChatResponse (Some msg_no_resume)
    else
      coach_chunks ← retrieve_texts (user_message payload) 3 ["coach_qa"]
                       None false;
      stored ← get_user_name (file_id payload);
      let user_name1 :=
        match stored with
        | Some n => if nonempty n then n else "friend"
        | None => "friend"
        end in
      response ← generate_reply llm (user_message payload) resume_chunks
                   coach_chunks user_name1;
      ChatResponse response.

End Backend.

(** ** The hosted vector index *)

(** Modelled from the spec: the hosted similarity service behind [index]
    (its client is a third-party package, not part of the sources).  It
    stores items by id, overwriting on collision; a query keeps the items
    whose metadata satisfies every condition of the filter, scores them
    against the query vector and returns the [top_k] best, best first. *)
Section Pinecone.

Context {vector : Type}.
Variable similarity : vector -> vector -> Q.

Definition to_match (vec : vector) (it : item vector) : scored_match :=
  {| m_id := item_id it;
     score := similarity vec (item_values it);
     metadata := item_metadata it |}.

Definition pinecone_query (idx : list (item vector)) (vec : vector)
    (top_k : nat) (flt : option (gmap string cond)) : list scored_match :=
  take top_k
    (sorted_desc
       (map (to_match vec)
            (List.filter (fun it => passes flt (item_metadata it)) idx))).

Fixpoint upsert_one (it : item vector) (idx : list (item vector))
  : list (item vector) :=
  match idx with
  | [] => [it]
  | old :: idx' =>
      if String.eqb (item_id old) (item_id it) then it :: idx'
      else old :: upsert_one it idx'
  end.

Definition pinecone_upsert (idx : list (item vector))
    (items : list (item vector)) : list (item vector) :=
  fold_left (fun acc it => upsert_one it acc) items idx.

End Pinecone.

(** ** Sample inputs *)

(** [c * n] *)
Fixpoint str_repeat (c : ascii) (n : nat) : string :=
  match n with
  | O => EmptyString
  | S n' => String c (str_repeat c n')
  end.

Definition sample_resume_text : string :=
  "John Doe" +:+ String newline (str_repeat "x" 300).


(** A small index: two chunks of the resume uploaded as [B], one of them
    stored without its text, a chunk of resume [C], and one coaching
    entry.  Vectors are integers and the closer one is to the query the
    higher it scores. *)
Definition sample_embed (texts : list string) : list Z :=
  map (fun t => Z.of_nat (String.length t)) texts.

Definition sample_similarity (a b : Z) : Q := inject_Z (- Z.abs (a - b)).

Definition sample_index : list (item Z) :=
  [ {| item_id := "B-0"; item_values := 3;
       item_metadata :=
         <["file_id" := "B"]> (<["text" := "Worked at Acme"]> {[ "doc_type" := "resume_chunk" ]}) |};
    {| item_id := "B-1"; item_values := 4;
       item_metadata := <["file_id" := "B"]> {[ "doc_type" := "resume_chunk" ]} |};
    {| item_id := "C-0"; item_values := 9;
       item_metadata :=
         <["file_id" := "C"]> (<["text" := "Python, SQL"]> {[ "doc_type" := "resume_chunk" ]}) |};
    {| item_id := "coachqa-0"; item_values := 5;
       item_metadata := <["text" := "Use the STAR method"]> {[ "doc_type" := "coach_qa" ]} |} ].

Definition sample_world : @world (list (item Z)) :=
  {| sessions := {[ "B" := "Jane" ]}; resumes := ∅; ANALYSIS_CACHE := ∅;
     index := sample_index; calls := [] |}.

Definition sample_query : list (item Z) -> Z -> nat -> option (gmap string cond) ->
    list scored_match :=
  pinecone_query sample_similarity.

(** Stand-ins for the library functions, enough for the sample runs: a
    parser that knows two documents, a hash that is the length, a digest
    that is the text. *)
Definition sample_loads (s : string) : option json :=
  if String.eqb s "[]" then Some (JArr [])
  else if String.eqb s "{}" then Some (JObj [])
  else None.

Definition sample_hash (s : string) : Z := str_len s.


Definition empty_world : @world (list (item Z)) :=
  {| sessions := ∅; resumes := ∅; ANALYSIS_CACHE := ∅; index := []; calls := [] |}.

(** A model that says YES to the classifier, answers the analysis with an
    empty object and the chat with one line. *)
Definition sample_llm (p : prompt) : option string :=
  match p with
  | ClassifyPrompt _ => Some "YES"
  | AnalysisPrompt _ => Some "{}"
  | ReplyPrompt _ _ _ _ => Some "- Lead with your Acme work"
  end.





Definition sample_chat (payload : ChatRequest) (w : @world (list (item Z)))
  : result string * @world (list (item Z)) :=
  chat sample_embed sample_query sample_llm payload w.

(** * Properties *)

(** ** Strings and slices *)

Lemma length_str_take n s :
  String.length (str_take n s) = Nat.min n (String.length s).
Proof.
  revert s; induction n as [|n IH]; intros [|c s]; simpl; auto.
Qed.

Lemma length_str_drop n s :
  String.length (str_drop n s) = (String.length s - n)%nat.
Proof.
  revert s; induction n as [|n IH]; intros [|c s]; simpl; auto.
Qed.

Lemma str_take_all n s : (String.length s <= n)%nat -> str_take n s = s.
Proof.
  revert s; induction n as [|n IH]; intros [|c s] H; simpl in *; auto; try lia.
  f_equal. apply IH. lia.
Qed.

Lemma str_drop_all n s : (String.length s <= n)%nat -> str_drop n s = "".
Proof.
  revert s; induction n as [|n IH]; intros [|c s] H; simpl in *; auto; try lia.
  apply IH. lia.
Qed.

Lemma str_take_empty n : str_take n "" = "".
Proof. destruct n; reflexivity. Qed.

Lemma str_drop_drop a b s : str_drop b (str_drop a s) = str_drop (a + b) s.
Proof.
  revert s; induction a as [|a IH]; intros s; simpl; auto.
  destruct s as [|c s]; simpl.
  - destruct b; reflexivity.
  - apply IH.
Qed.

Lemma str_app_cons c a b : String c a +:+ b = String c (a +:+ b).
Proof. reflexivity. Qed.

Lemma str_take_app a b s :
  str_take a s +:+ str_take b (str_drop a s) = str_take (a + b) s.
Proof.
  revert s; induction a as [|a IH]; intros s; simpl; auto.
  destruct s as [|c s]; simpl.
  - now rewrite str_take_empty.
  - rewrite str_app_cons. f_equal. apply IH.
Qed.

Lemma str_drop_take n m s :
  str_drop n (str_take m s) = str_take (m - n) (str_drop n s).
Proof.
  revert m s; induction n as [|n IH]; intros m s; simpl.
  - now rewrite Nat.sub_0_r.
  - destruct m as [|m]; destruct s as [|c s]; simpl; auto.
    now rewrite str_take_empty.
Qed.

Lemma str_app_empty_r s : s +:+ "" = s.
Proof. induction s as [|c s IH]; [reflexivity|]. rewrite str_app_cons; congruence. Qed.

Lemma str_app_assoc a b c : (a +:+ b) +:+ c = a +:+ (b +:+ c).
Proof. induction a as [|x a IH]; [reflexivity|]. rewrite !str_app_cons; congruence. Qed.

Lemma str_len_nonneg s : 0 <= str_len s.
Proof. unfold str_len; lia. Qed.

Lemma str_len_zero s : str_len s = 0 -> s = "".
Proof. destruct s; unfold str_len; simpl; [auto | lia]. Qed.

Lemma clamp_index_nonneg n i : 0 <= i -> clamp_index n i = Z.min i n.
Proof.
  intros H. unfold clamp_index.
  destruct (Z.ltb_spec i 0); [lia | reflexivity].
Qed.

(** [s[:hi]] of a bound beyond the end is the whole string. *)
Lemma py_slice_to_all s hi : str_len s <= hi -> py_slice_to s hi = s.
Proof.
  intros H. pose proof (str_len_nonneg s) as Hn. unfold py_slice_to.
  rewrite clamp_index_nonneg by lia.
  apply str_take_all. unfold str_len in *. lia.
Qed.

(** A slice from the start is a prefix. *)
Lemma py_slice_from_zero s hi : 0 <= hi -> py_slice s 0 hi = py_slice_to s hi.
Proof.
  intros H. unfold py_slice, py_slice_to.
  pose proof (str_len_nonneg s).
  rewrite (clamp_index_nonneg _ 0) by lia.
  rewrite Z.min_l by lia. simpl. now rewrite Z.sub_0_r.
Qed.

(** Dropping up to the length or beyond it is the same. *)
Lemma py_slice_from_drop c o : 0 <= o -> py_slice_from c o = str_drop (Z.to_nat o) c.
Proof.
  intros H. unfold py_slice_from. rewrite clamp_index_nonneg by lia.
  destruct (Z.le_ge_cases o (str_len c)) as [Hle|Hge].
  - now rewrite Z.min_l by lia.
  - rewrite Z.min_r by lia. unfold str_len in *.
    rewrite !str_drop_all; auto; lia.
Qed.

(** The prefix up to [a] followed by the window [a..b] is the prefix up
    to [b]. *)
Lemma py_slice_to_extend s a b :
  0 <= a <= b -> py_slice_to s a +:+ py_slice s a b = py_slice_to s b.
Proof.
  intros [Ha Hab]. unfold py_slice_to, py_slice.
  rewrite !clamp_index_nonneg by lia.
  rewrite str_take_app. f_equal. lia.
Qed.

(** Cutting [o] characters off the window [start..e] gives the window
    [start+o..e]. *)
Lemma py_slice_from_window s start e o :
  0 <= start -> 0 <= o ->
  py_slice_from (py_slice s start e) o = py_slice s (start + o) e.
Proof.
  intros Hs Ho. rewrite py_slice_from_drop by lia.
  unfold py_slice. pose proof (str_len_nonneg s) as Hn.
  rewrite (clamp_index_nonneg _ start), (clamp_index_nonneg _ (start + o)) by lia.
  set (b := clamp_index (str_len s) e).
  rewrite str_drop_take, str_drop_drop.
  destruct (Z.le_gt_cases (start + o) (str_len s)) as [Hle|Hgt].
  - rewrite (Z.min_l start), (Z.min_l (start + o)) by lia.
    f_equal; [lia | f_equal; lia].
  - rewrite (Z.min_r (start + o)) by lia.
    rewrite (str_drop_all (Z.to_nat (str_len s))) by (unfold str_len; lia).
    rewrite str_drop_all, !str_take_empty; [reflexivity|].
    unfold str_len in *. lia.
Qed.

(** ** The chunker *)

Lemma chunk_loop_unfold fuel text size overlap start chunks :
  chunk_loop (S fuel) text size overlap start chunks =
  if start <? str_len text
  then chunk_loop fuel text size overlap (start + size - overlap)
         (chunks ++ [py_slice text start (start + size)])
  else Some chunks.
Proof. reflexivity. Qed.

(** Fuel beyond what the loop needs changes nothing. *)
Lemma chunk_loop_more_fuel fuel fuel' text size overlap start chunks out :
  (fuel <= fuel')%nat ->
  chunk_loop fuel text size overlap start chunks = Some out ->
  chunk_loop fuel' text size overlap start chunks = Some out.
Proof.
  revert fuel' start chunks.
  induction fuel as [|fuel IH]; intros fuel' start chunks Hle H; [discriminate|].
  destruct fuel' as [|fuel']; [lia|].
  rewrite chunk_loop_unfold in *.
  destruct (start <? str_len text); [|exact H].
  apply IH; [lia | exact H].
Qed.

(** With a positive stride the distance to the end of the text bounds the
    number of iterations. *)
Lemma chunk_loop_terminates fuel text size overlap start chunks :
  overlap < size ->
  (Z.to_nat (str_len text - start) < fuel)%nat ->
  exists out, chunk_loop fuel text size overlap start chunks = Some out.
Proof.
  intros Hstep. revert start chunks.
  induction fuel as [|fuel IH]; intros start chunks Hfuel; [lia|].
  rewrite chunk_loop_unfold.
  destruct (Z.ltb_spec start (str_len text)) as [Hlt|Hge].
  - apply IH. lia.
  - eauto.
Qed.

(** When the stride is not positive the loop never leaves a non-empty
    text: no amount of fuel is enough. *)
Lemma chunk_loop_diverges fuel text size overlap start chunks :
  size <= overlap -> start <= 0 -> 0 < str_len text ->
  chunk_loop fuel text size overlap start chunks = None.
Proof.
  intros Hstep. revert start chunks.
  induction fuel as [|fuel IH]; intros start chunks Hs Hlen; [reflexivity|].
  rewrite chunk_loop_unfold.
  destruct (Z.ltb_spec start (str_len text)); [|lia].
  apply IH; lia.
Qed.

Lemma concat_empty_snoc l x :
  String.concat "" (l ++ [x]) = String.concat "" l +:+ x.
Proof.
  induction l as [|y l IH]; [reflexivity|].
  destruct l as [|z l].
  - reflexivity.
  - change (String.concat "" ((y :: z :: l) ++ [x]))
      with (y +:+ "" +:+ String.concat "" ((z :: l) ++ [x])).
    rewrite IH.
    change (String.concat "" (y :: z :: l))
      with (y +:+ "" +:+ String.concat "" (z :: l)).
    now rewrite !str_app_assoc.
Qed.

Lemma reassemble_snoc overlap chunks c :
  chunks <> [] ->
  reassemble overlap (chunks ++ [c]) =
  reassemble overlap chunks +:+ py_slice_from c overlap.
Proof.
  destruct chunks as [|c0 cs]; [congruence|]. intros _.
  unfold reassemble. cbn [app]. rewrite List.map_app. cbn [map].
  rewrite concat_empty_snoc. now rewrite str_app_assoc.
Qed.

(** The loop invariant of the round trip: what has been emitted so far
    reassembles to the prefix of the text that ends where the last window
    ended. *)
Lemma chunk_loop_reassemble fuel text size overlap start chunks out :
  0 <= overlap < size ->
  (start = 0 /\ chunks = []) \/
  (0 < start /\ chunks <> [] /\
   reassemble overlap chunks = py_slice_to text (start + overlap)) ->
  chunk_loop fuel text size overlap start chunks = Some out ->
  reassemble overlap out = text.
Proof.
  intros Hov. revert start chunks.
  induction fuel as [|fuel IH]; intros start chunks Hinv Hrun; [discriminate|].
  rewrite chunk_loop_unfold in Hrun.
  destruct (Z.ltb_spec start (str_len text)) as [Hlt|Hge].
  - apply IH in Hrun; [exact Hrun|]. right.
    destruct Hinv as [[-> ->]|(Hpos & Hne & Hpre)].
    + split; [lia|]. split; [discriminate|].
      simpl app. unfold reassemble. simpl map. simpl String.concat.
      rewrite str_app_empty_r, py_slice_from_zero by lia.
      f_equal. lia.
    + split; [lia|]. split; [now destruct chunks|].
      rewrite reassemble_snoc by assumption.
      rewrite Hpre, py_slice_from_window by lia.
      rewrite py_slice_to_extend by lia. f_equal. lia.
  - injection Hrun as <-.
    destruct Hinv as [[-> ->]|(Hpos & Hne & Hpre)].
    + simpl. symmetry. apply str_len_zero. pose proof (str_len_nonneg text). lia.
    + rewrite Hpre. apply py_slice_to_all. lia.
Qed.

Lemma chunk_text_default_fuel text :
  exists chunks, chunk_text_fuel (S (String.length text)) text 500 50 = Some chunks.
Proof.
  apply chunk_loop_terminates; [lia|]. unfold str_len. lia.
Qed.

(** C8. For every text, [chunk_text] terminates whenever [overlap < size]:
    the start of the window advances by [size - overlap] at each iteration,
    so one more step than the text has characters is always enough, and
    more fuel gives the same chunks. *)
Theorem chunk_text_terminates (text : string) (size overlap : Z) :
  overlap < size ->
  exists chunks, forall fuel, (S (String.length text) <= fuel)%nat ->
    chunk_text_fuel fuel text size overlap = Some chunks.
Proof.
  intros Hstep.
  destruct (chunk_loop_terminates (S (String.length text)) text size overlap 0 [] Hstep)
    as [out Hout]; [unfold str_len; lia|].
  exists out. intros fuel Hfuel.
  eapply chunk_loop_more_fuel; eauto.
Qed.

(** C9. For every text and every overlap with [0 <= overlap < size],
    [chunk_text] returns chunks, and the first chunk followed by every
    later chunk without its leading [overlap] characters is the text. *)
Theorem chunk_text_round_trip (text : string) (size overlap : Z) :
  0 <= overlap < size ->
  exists chunks,
    chunk_text_fuel (S (String.length text)) text size overlap = Some chunks /\
    reassemble overlap chunks = text.
Proof.
  intros Hov.
  destruct (chunk_loop_terminates (S (String.length text)) text size overlap 0 [])
    as [chunks Hc]; [lia | unfold str_len; lia |].
  exists chunks. split; [exact Hc|].
  eapply chunk_loop_reassemble; [exact Hov | left; split; reflexivity | exact Hc].
Qed.

(** The chunks of a text of at most 500 characters, with the defaults. *)
Lemma chunk_loop_short text :
  str_len text <= 500 ->
  chunk_loop 3 text 500 50 0 [] =
  Some (if str_len text =? 0 then []
        else if str_len text <=? 450 then [text]
        else [text; py_slice text 450 950]).
Proof.
  intros Hlen. rewrite chunk_loop_unfold.
  destruct (Z.ltb_spec 0 (str_len text)) as [Hpos|Hzero].
  - destruct (Z.eqb_spec (str_len text) 0) as [?|_]; [lia|].
    rewrite chunk_loop_unfold. change (0 + 500 - 50) with 450.
    change (0 + 500) with 500. cbn [app].
    rewrite py_slice_from_zero, py_slice_to_all by lia.
    destruct (Z.ltb_spec 450 (str_len text)) as [Hlong|Hshort].
    + destruct (Z.leb_spec (str_len text) 450); [lia|].
      rewrite chunk_loop_unfold. change (450 + 500 - 50) with 900.
      destruct (Z.ltb_spec 900 (str_len text)); [lia|]. reflexivity.
    + destruct (Z.leb_spec (str_len text) 450); [|lia]. reflexivity.
  - pose proof (str_len_nonneg text).
    destruct (Z.eqb_spec (str_len text) 0) as [_|?]; [|lia]. reflexivity.
Qed.

(** C2, as the code has it.  With the defaults, a text of at most 500
    characters gives: no chunk when it is empty; exactly one chunk, the
    text itself, when it has between 1 and 450 characters; and two chunks,
    the text and its tail from position 450, when it has between 451 and
    500 characters. *)
Theorem chunk_text_short (text : string) :
  str_len text <= 500 ->
  chunk_text text =
  if str_len text =? 0 then []
  else if str_len text <=? 450 then [text]
  else [text; py_slice text 450 950].
Proof.
  intros Hlen. unfold chunk_text, chunk_text_fuel.
  destruct (chunk_text_default_fuel text) as [chunks Hc].
  unfold chunk_text_fuel in Hc. rewrite Hc.
  pose proof (chunk_loop_short text Hlen) as H3.
  destruct (Nat.le_ge_cases 3 (S (String.length text))) as [Hle|Hge].
  - eapply chunk_loop_more_fuel in H3; [|exact Hle]. congruence.
  - eapply chunk_loop_more_fuel in Hc; [|exact Hge]. congruence.
Qed.

Lemma chunk_text_short_witness :
  str_len "John Doe" <= 500 /\ chunk_text "John Doe" = ["John Doe"].
Proof.
  split; [unfold str_len; simpl; lia|].
  exact (chunk_text_short "John Doe" ltac:(unfold str_len; simpl; lia)).
Defined.

(** C2 as stated fails: the empty text gives no chunk at all, and a text
    of 460 characters gives two. *)
Lemma chunk_text_short_counterexample :
  (str_len "" <= 500 /\ length (chunk_text "") <> 1%nat) /\
  (str_len (str_repeat "a" 460) <= 500 /\
   chunk_text (str_repeat "a" 460) = [str_repeat "a" 460; str_repeat "a" 10]).
Proof.
  split; split; vm_compute; congruence.
Qed.

Lemma chunk_text_terminates_witness :
  (1 < 4) /\
  exists chunks, forall fuel, (S (String.length "abcdefghij") <= fuel)%nat ->
    chunk_text_fuel fuel "abcdefghij" 4 1 = Some chunks.
Proof.
  split; [lia|]. apply (chunk_text_terminates "abcdefghij" 4 1). lia.
Defined.

Lemma chunk_text_round_trip_witness :
  (0 <= 1 < 4) /\
  exists chunks,
    chunk_text_fuel (S (String.length "abcdefghij")) "abcdefghij" 4 1 = Some chunks /\
    reassemble 1 chunks = "abcdefghij".
Proof.
  split; [lia|]. apply (chunk_text_round_trip "abcdefghij" 4 1). lia.
Defined.

(** ** The classifier *)

Section ClassifierProperties.

Context {index_t : Type}.

(** C6. Whatever text the model answers, [is_probable_resume] returns
    [True] only if the uppercased answer contains YES and does not contain
    NO; it returns [False] if the answer contains NO and not YES, and also
    when it contains both or neither.  For a text that passes the length
    filters, YES without NO does give [True]. *)
Theorem is_probable_resume_verdict (llm : prompt -> option string)
    (text response : string) (w : @world index_t) :
  llm (ClassifyPrompt (text_for_llm text)) = Some response ->
  let raw := upper (strip response) in
  let yes := py_in "YES" raw in
  let no := py_in "NO" raw in
  exists verdict w',
    is_probable_resume llm text w = (Ok verdict, w') /\
    (verdict = true -> yes = true /\ no = false) /\
    (no = true -> yes = false -> verdict = false) /\
    (yes = true -> no = true -> verdict = false) /\
    (yes = false -> no = false -> verdict = false) /\
    (300 <= str_len text <= 60000 -> yes = true -> no = false -> verdict = true).
Proof.
  intros Hllm raw yes no. unfold is_probable_resume.
  destruct (nonempty text) eqn:Hne; cbn [negb].
  2:{ exists false, w. split; [reflexivity|].
      repeat split; try congruence.
      intros Hlen. destruct text; [unfold str_len in Hlen; simpl in Hlen; lia | discriminate]. }
  destruct (Z.ltb_spec (str_len text) 300) as [Hshort|Hlong].
  { exists false, w. split; [reflexivity|]. repeat split; try congruence; lia. }
  destruct (Z.ltb_spec 60000 (str_len text)) as [Hbig|Hfit].
  { exists false, w. split; [reflexivity|]. repeat split; try congruence; lia. }
  unfold mbind, M_bind. cbn [record]. rewrite Hllm.
  fold raw. fold yes. fold no.
  destruct yes, no; cbn [andb negb]; eexists _, _; (split; [reflexivity|]);
    repeat split; congruence.
Qed.

End ClassifierProperties.

Lemma is_probable_resume_verdict_witness :
  let llm := fun _ : prompt => Some " yes. " in
  let w : @world unit :=
    {| sessions := ∅; resumes := ∅; ANALYSIS_CACHE := ∅; index := tt; calls := [] |} in
  llm (ClassifyPrompt (text_for_llm sample_resume_text)) = Some " yes. " /\
  (is_probable_resume llm sample_resume_text w).1 = Ok true.
Proof.
  intros llm w. split; [reflexivity|].
  destruct (is_probable_resume_verdict llm sample_resume_text " yes. " w eq_refl)
    as (verdict & w' & Hrun & _ & _ & _ & _ & Hyes).
  rewrite Hrun. simpl. f_equal. apply Hyes; vm_compute; [split; congruence | reflexivity | reflexivity].
Defined.

(** ** Sorting the matches *)

Lemma insert_desc_perm x l : Permutation (x :: l) (insert_desc x l).
Proof.
  induction l as [|y l IH]; simpl; [reflexivity|].
  destruct (Qle_bool (score y) (score x)); [reflexivity|].
  rewrite perm_swap. now apply perm_skip.
Qed.

Lemma sorted_desc_perm l : Permutation l (sorted_desc l).
Proof.
  induction l as [|x l IH]; simpl; [reflexivity|].
  rewrite <- insert_desc_perm. now apply perm_skip.
Qed.




(** The sort is stable: a list already in descending order is returned
    as it is. *)
Lemma sorted_desc_stable l : StronglySorted desc l -> sorted_desc l = l.
Proof.
  induction 1 as [|x l Hl IH Hx]; simpl; [reflexivity|].
  rewrite IH. destruct l as [|y l]; simpl; [reflexivity|].
  inversion Hx as [|? ? Hxy _]; subst. unfold desc in Hxy.
  apply Qle_bool_iff in Hxy. now rewrite Hxy.
Qed.

(** ** Retrieval *)

Section RetrievalProperties.

Context {vector index_t : Type}.
Variable embed_content : list string -> list vector.
Variable index_query :
  index_t -> vector -> nat -> option (gmap string cond) -> list scored_match.

Lemma add_calls_app (w : @world index_t) a b :
  add_calls (add_calls w a) b = add_calls w (a ++ b).
Proof. unfold add_calls; simpl. now rewrite <- app_assoc. Qed.

Lemma index_add_calls (w : @world index_t) a : index (add_calls w a) = index w.
Proof. reflexivity. Qed.

(** [retrieve_texts] step by step: one embedding call, the filtered query,
    and the retry when it applies. *)
Lemma retrieve_texts_run query top_k doc_types file_id allow_fallback (w : @world index_t) :
  retrieve_texts embed_content index_query query top_k doc_types file_id allow_fallback w =
  match embed_content [query] with
  | [] => (Ok [], add_calls w [EvEmbed [query]])
  | vec :: _ =>
      let flt := filter_or_none (build_filter doc_types file_id) in
      let res := index_query (index w) vec top_k flt in
      match doc_types with
      | d0 :: _ =>
          if allow_fallback && is_nil res && truthy_id file_id then
            let fallback : gmap string cond := {[ "doc_type" := CEq d0 ]} in
            let res' := index_query (index w) vec top_k (Some fallback) in
            (Ok (texts_of res'),
             add_calls w [EvEmbed [query]; EvQuery top_k flt res;
                          EvQuery top_k (Some fallback) res'])
          else
            (Ok (texts_of res),
             add_calls w [EvEmbed [query]; EvQuery top_k flt res])
      | [] =>
          (Ok (texts_of res),
           add_calls w [EvEmbed [query]; EvQuery top_k flt res])
      end
  end.
Proof.
  unfold retrieve_texts, embed_texts, query_index, mbind, M_bind, mret, M_ret,
    record, get_world.
  destruct (embed_content [query]) as [|vec vecs]; [reflexivity|].
  cbn zeta. rewrite !add_calls_app, !index_add_calls. cbn [app].
  set (res := index_query (index w) vec top_k _).
  destruct doc_types as [|d0 ds].
  - rewrite !andb_false_r. unfold texts_of. destruct res; reflexivity.
  - cbn [is_nil negb]. rewrite andb_true_r.
    destruct (allow_fallback && is_nil res && truthy_id file_id).
    + rewrite !add_calls_app, !index_add_calls. cbn [app].
      unfold texts_of.
      destruct (index_query (index w) vec top_k (Some {[ "doc_type" := CEq d0 ]}));
        reflexivity.
    + unfold texts_of. destruct res; reflexivity.
Qed.

Lemma filter_holds_lookup f md key c :
  filter_holds f md = true -> f !! key = Some c -> cond_holds c (md !! key) = true.
Proof.
  unfold filter_holds. intros H Hk.
  apply bool_decide_eq_true in H. exact (H key c Hk).
Qed.

Lemma cond_holds_eq v o : cond_holds (CEq v) o = true -> o = Some v.
Proof.
  destruct o as [y|]; simpl; [|discriminate].
  intros H. apply String.eqb_eq in H. now subst.
Qed.

Lemma build_filter_file_id doc_types (A : string) :
  nonempty A = true ->
  build_filter doc_types (Some A) !! "file_id" = Some (CEq A).
Proof.
  intros HA. unfold build_filter. rewrite HA. apply lookup_insert_eq.
Qed.

Lemma filter_or_none_file_id doc_types (A : string) :
  nonempty A = true ->
  filter_or_none (build_filter doc_types (Some A)) =
  Some (build_filter doc_types (Some A)).
Proof.
  intros HA. unfold filter_or_none.
  destruct (decide (build_filter doc_types (Some A) = ∅)) as [He|]; [|reflexivity].
  pose proof (build_filter_file_id doc_types A HA) as Hl.
  rewrite He, lookup_empty in Hl. discriminate.
Qed.

Lemma in_texts_of res t :
  In t (texts_of res) -> exists m, In m res /\ match_text m = t.
Proof.
  unfold texts_of. destruct res as [|m0 res]; [intros []|].
  intros Hin. apply in_map_iff in Hin as (m & Hm & Hin).
  exists m. split; [|exact Hm].
  eapply Permutation_in; [apply Permutation_sym, sorted_desc_perm | exact Hin].
Qed.

(** C4. With [allow_fallback=False] and a file id [A], [retrieve_texts]
    issues at most one query, its filter carries the condition
    [file_id = A], and on an index that honours its filters every text
    returned is the text of a match whose metadata has [file_id = A]. *)
Theorem retrieve_texts_isolation query top_k doc_types (A : string)
    (w : @world index_t) :
  honours_filters index_query ->
  nonempty A = true ->
  exists texts new_calls,
    retrieve_texts embed_content index_query query top_k doc_types (Some A) false w
      = (Ok texts, add_calls w new_calls) /\
    (length (List.filter is_query new_calls) <= 1)%nat /\
    (forall k flt ms, In (EvQuery k flt ms) new_calls ->
       exists f, flt = Some f /\ f !! "file_id" = Some (CEq A)) /\
    (forall t, In t texts ->
       exists k flt ms m,
         In (EvQuery k flt ms) new_calls /\ In m ms /\
         metadata m !! "file_id" = Some A /\ match_text m = t).
Proof.
  intros Hhon HA. rewrite retrieve_texts_run.
  destruct (embed_content [query]) as [|vec vecs].
  { eexists _, _. split; [reflexivity|]. split; [simpl; lia|].
    split; [|intros t []].
    intros k flt ms [H|[]]. discriminate. }
  cbn zeta. rewrite filter_or_none_file_id by assumption.
  set (f := build_filter doc_types (Some A)).
  set (res := index_query (index w) vec top_k (Some f)).
  exists (texts_of res), [EvEmbed [query]; EvQuery top_k (Some f) res].
  split; [destruct doc_types; reflexivity|].
  split; [simpl; lia|]. split.
  - intros k flt ms [H|[H|[]]]; [discriminate|]. injection H as <- <- <-.
    exists f. split; [reflexivity | now apply build_filter_file_id].
  - intros t Ht. apply in_texts_of in Ht as (m & Hm & Ht).
    exists top_k, (Some f), res, m. split; [right; left; reflexivity|].
    split; [exact Hm|]. split; [|exact Ht].
    apply cond_holds_eq.
    eapply filter_holds_lookup; [eapply Hhon, Hm | now apply build_filter_file_id].
Qed.


(** The retry of [retrieve_texts]: after an empty answer to the query
    scoped to a file id, one more query is made, filtered on the first
    requested doc_type alone, and its matches are what is returned. *)
Lemma retrieve_texts_fallback query top_k d0 ds (A : string) vec vecs
    (w : @world index_t) :
  nonempty A = true ->
  embed_content [query] = vec :: vecs ->
  index_query (index w) vec top_k (Some (build_filter (d0 :: ds) (Some A))) = [] ->
  let fallback : gmap string cond := {[ "doc_type" := CEq d0 ]} in
  let res' := index_query (index w) vec top_k (Some fallback) in
  retrieve_texts embed_content index_query query top_k (d0 :: ds) (Some A) true w =
  (Ok (texts_of res'),
   add_calls w [EvEmbed [query];
                EvQuery top_k (Some (build_filter (d0 :: ds) (Some A))) [];
                EvQuery top_k (Some fallback) res']).
Proof.
  intros HA Hvec Hres fallback res'. rewrite retrieve_texts_run, Hvec.
  cbn zeta. rewrite filter_or_none_file_id by assumption.
  rewrite Hres. cbn [is_nil andb truthy_id]. now rewrite HA.
Qed.

(** For a single doc_type the retry filter is the doc_type filter of the
    first query without the file id. *)
Lemma fallback_filter_single (d0 : string) :
  ({[ "doc_type" := CEq d0 ]} : gmap string cond) = build_filter [d0] None.
Proof. reflexivity. Qed.

(** For several doc_types it is not: the first query asks for membership
    in the list, the retry for equality with its first element. *)
Lemma fallback_filter_multi (d0 d1 : string) ds :
  ({[ "doc_type" := CEq d0 ]} : gmap string cond) <> build_filter (d0 :: d1 :: ds) None.
Proof.
  intros H. apply (f_equal (fun m => m !! "doc_type")) in H.
  unfold build_filter in H. rewrite lookup_singleton_eq, lookup_insert_eq in H.
  discriminate.
Qed.

End RetrievalProperties.

(** ** The index model *)

Section PineconeProperties.

Context {vector : Type}.
Variable similarity : vector -> vector -> Q.

Lemma in_take {A} (x : A) k l : In x (take k l) -> In x l.
Proof.
  intros H. rewrite <- (firstn_skipn k l). apply in_or_app. now left.
Qed.

(** A match returned by the index comes from a stored item that passes
    the filter. *)
Lemma pinecone_query_in idx vec top_k flt m :
  In m (pinecone_query similarity idx vec top_k flt) ->
  exists it, In it idx /\ passes flt (item_metadata it) = true /\
             m = to_match similarity vec it.
Proof.
  unfold pinecone_query. intros H. apply in_take in H.
  apply (Permutation_in _ (Permutation_sym (sorted_desc_perm _))) in H.
  apply in_map_iff in H as (it & <- & Hit).
  apply List.filter_In in Hit as [Hin Hpass]. eauto.
Qed.

Lemma pinecone_honours_filters : honours_filters (pinecone_query similarity).
Proof.
  intros idx vec top_k f m Hm.
  apply pinecone_query_in in Hm as (it & _ & Hpass & ->). exact Hpass.
Qed.

(** Nothing is returned for a file id no stored item carries. *)
Lemma pinecone_query_absent idx vec top_k f (A : string) :
  f !! "file_id" = Some (CEq A) ->
  (forall it, In it idx -> item_metadata it !! "file_id" <> Some A) ->
  pinecone_query similarity idx vec top_k (Some f) = [].
Proof.
  intros Hf Habs.
  destruct (pinecone_query similarity idx vec top_k (Some f)) as [|m ms] eqn:Hq;
    [reflexivity|].
  assert (Hm : In m (pinecone_query similarity idx vec top_k (Some f)))
    by (rewrite Hq; now left).
  apply pinecone_query_in in Hm as (it & Hin & Hpass & _).
  exfalso. apply (Habs it Hin). apply cond_holds_eq.
  eapply filter_holds_lookup; eauto.
Qed.

End PineconeProperties.

Lemma retrieve_texts_isolation_witness :
  honours_filters sample_query /\ nonempty "B" = true /\
  exists texts new_calls,
    retrieve_texts sample_embed sample_query "hello" 5 ["resume_chunk"] (Some "B")
      false sample_world = (Ok texts, add_calls sample_world new_calls) /\
    (length (List.filter is_query new_calls) <= 1)%nat /\
    (forall k flt ms, In (EvQuery k flt ms) new_calls ->
       exists f, flt = Some f /\ f !! "file_id" = Some (CEq "B")) /\
    (forall t, In t texts ->
       exists k flt ms m,
         In (EvQuery k flt ms) new_calls /\ In m ms /\
         metadata m !! "file_id" = Some "B" /\ match_text m = t).
Proof.
  split; [apply pinecone_honours_filters|]. split; [reflexivity|].
  apply (retrieve_texts_isolation sample_embed sample_query "hello" 5
           ["resume_chunk"] "B" sample_world);
    [apply pinecone_honours_filters | reflexivity].
Defined.

(** On the sample index the chunk stored without text comes back as the
    empty string, ranked by its score. *)
Example retrieve_texts_sample :
  (retrieve_texts sample_embed sample_query "hello" 5 ["resume_chunk"] (Some "B")
     false sample_world).1 = Ok [""; "Worked at Acme"].
Proof. vm_compute. reflexivity. Qed.

(** C5 fails for several doc_types.  Asked for coaching entries and resume
    chunks of a file id that has none, with the retry allowed, the second
    query filters on the first doc_type alone: its filter is not the
    doc_type filter of the first query, and the resume chunks that filter
    admits are not returned. *)
Theorem retrieve_texts_fallback_first_doc_type :
  let doc_types := ["coach_qa"; "resume_chunk"] in
  let retry : gmap string cond := {[ "doc_type" := CEq "coach_qa" ]} in
  exists res',
    retrieve_texts sample_embed sample_query "hello" 5 doc_types (Some "A") true
      sample_world =
    (Ok ["Use the STAR method"],
     add_calls sample_world
       [EvEmbed ["hello"];
        EvQuery 5 (Some (build_filter doc_types (Some "A"))) [];
        EvQuery 5 (Some retry) res']) /\
    retry <> build_filter doc_types None /\
    texts_of (sample_query sample_index 5 5%nat (Some (build_filter doc_types None)))
      = ["Use the STAR method"; ""; "Worked at Acme"; "Python, SQL"].
Proof.
  intros doc_types retry. eexists. split; [|split].
  - unfold doc_types.
    rewrite (retrieve_texts_fallback sample_embed sample_query "hello" 5
               "coach_qa" ["resume_chunk"] "A" 5 []); [|reflexivity|reflexivity|].
    + cbn zeta. vm_compute. reflexivity.
    + vm_compute. reflexivity.
  - apply fallback_filter_multi.
  - vm_compute. reflexivity.
Qed.

(** ** The analyzer *)

Lemma get2_object d snake camel default :
  get2 (JObj d) snake camel default =
  Ok (match dict_get snake d with
      | Some v => v
      | None => match dict_get camel d with
                | Some v => v
                | None => default
                end
      end).
Proof.
  unfold get2. destruct (dict_get snake d); [reflexivity|].
  destruct (dict_get camel d); reflexivity.
Qed.

(** From a parsed object the dict literal is always built, with the ten
    keys in their order. *)
Lemma build_analysis_object d :
  exists r, build_analysis (JObj d) = Ok r /\ dict_keys r = analysis_fields.
Proof.
  unfold build_analysis. rewrite !get2_object.
  eexists. split; reflexivity.
Qed.

(** A field that is absent under both spellings gets its default. *)
Lemma build_analysis_defaults d r snake camel default :
  build_analysis (JObj d) = Ok r ->
  In (snake, camel, default) field_table ->
  dict_get snake d = None -> dict_get camel d = None ->
  dict_get snake r = Some default.
Proof.
  unfold build_analysis. rewrite !get2_object. intros Hr Hin Hs Hc.
  injection Hr as <-.
  simpl in Hin.
  repeat (destruct Hin as [Hin|Hin];
          [injection Hin as <- <- <-; rewrite ?Hs, ?Hc; reflexivity|]).
  destruct Hin.
Qed.

(** In particular an object without [gaps] gives [gaps: []]. *)
Lemma build_analysis_gaps d r :
  build_analysis (JObj d) = Ok r ->
  dict_get "gaps" d = None ->
  dict_get "gaps" r = Some (JArr []).
Proof.
  intros Hr Hg. eapply (build_analysis_defaults d r "gaps" "gaps"); eauto.
  simpl. tauto.
Qed.

(** Parsed data that is no object makes the very first [get2] raise. *)
Lemma build_analysis_non_object data :
  (forall d, data <> JObj d) -> exists e, build_analysis data = Raise e.
Proof.
  intros Hno. destruct data; try (eexists; reflexivity).
  exfalso. eapply Hno. reflexivity.
Qed.

Section AnalyzerProperties.

Context {index_t : Type}.
Variable py_hash : string -> Z.
Variable json_loads : string -> option json.

(** The answers the parsing copes with: no text, text that [json.loads]
    rejects, and text it reads as an object.  All ten fields are there. *)
Lemma analysis_of_response_complete resp_text :
  let raw := strip (match resp_text with Some t => t | None => "" end) in
  (forall data, json_loads (isolate_json raw) = Some data -> exists d, data = JObj d) ->
  exists r, analysis_of_response json_loads resp_text = Ok r /\
            dict_keys r = analysis_fields.
Proof.
  intros raw Hobj. unfold analysis_of_response. fold raw.
  destruct (nonempty raw); cbn [negb].
  - destruct (json_loads (isolate_json raw)) as [data|] eqn:Hparse.
    + destruct (Hobj data eq_refl) as [d ->]. apply build_analysis_object.
    + apply build_analysis_object.
  - exists empty_analysis. split; reflexivity.
Qed.

(** What [analyze_resume] does to the world: it records its call, and on
    a cache miss the generative call; only the cache can change besides. *)
Lemma analyze_resume_frame llm text (w : @world index_t) :
  exists res w' evs,
    analyze_resume py_hash json_loads llm text w = (res, w') /\
    calls w' = calls w ++ EvAnalyzeResume text :: evs /\
    resumes w' = resumes w /\ sessions w' = sessions w /\ index w' = index w.
Proof.
  unfold analyze_resume, cache_lookup, cache_store, record, lift, get_world,
    mbind, M_bind, mret, M_ret.
  cbn [ANALYSIS_CACHE add_calls].
  destruct (ANALYSIS_CACHE w !! py_hash text) as [r|].
  - eexists _, _, []. split; [reflexivity|]. repeat split.
  - destruct (analysis_of_response json_loads (llm (AnalysisPrompt text))) as [r|e].
    + eexists _, _, [_]. split; [reflexivity|]. cbn. rewrite <- app_assoc.
      repeat split.
    + eexists _, _, [_]. split; [reflexivity|]. cbn. rewrite <- app_assoc.
      repeat split.
Qed.

(** C7 fails on an answer that is JSON but no object.  On a cache miss,
    when [json.loads] reads the isolated text as a list, a string, a
    number, a boolean or null, [analyze_resume] raises instead of
    returning the ten fields. *)
Theorem analyze_resume_non_object llm text resp data (w : @world index_t) :
  ANALYSIS_CACHE w !! py_hash text = None ->
  llm (AnalysisPrompt text) = Some resp ->
  nonempty (strip resp) = true ->
  json_loads (isolate_json (strip resp)) = Some data ->
  (forall d, data <> JObj d) ->
  exists e w', analyze_resume py_hash json_loads llm text w = (Raise e, w').
Proof.
  intros Hmiss Hllm Hne Hparse Hno.
  destruct (build_analysis_non_object data Hno) as [e He].
  unfold analyze_resume, cache_lookup, cache_store, record, lift, get_world,
    mbind, M_bind, mret, M_ret.
  cbn [ANALYSIS_CACHE add_calls]. rewrite Hmiss, Hllm.
  unfold analysis_of_response. rewrite Hne, Hparse, He. cbn [negb].
  eexists _, _. reflexivity.
Qed.

End AnalyzerProperties.

Lemma analyze_resume_non_object_witness :
  let llm := fun _ : prompt => Some "[]" in
  ANALYSIS_CACHE empty_world !! sample_hash "Jane Roe" = None /\
  llm (AnalysisPrompt "Jane Roe") = Some "[]" /\
  nonempty (strip "[]") = true /\
  sample_loads (isolate_json (strip "[]")) = Some (JArr []) /\
  (forall d, JArr [] <> JObj d) /\
  (analyze_resume sample_hash sample_loads llm "Jane Roe" empty_world).1 =
    Raise AttributeError.
Proof.
  intros llm.
  assert (Hno : forall d, JArr [] <> JObj d) by (intros d; discriminate).
  repeat (split; [first [reflexivity | exact Hno]|]).
  destruct (analyze_resume_non_object sample_hash sample_loads llm "Jane Roe" "[]"
              (JArr []) empty_world eq_refl eq_refl eq_refl eq_refl Hno)
    as (e & w' & Hrun).
  rewrite Hrun. simpl.
  assert (He : (analyze_resume sample_hash sample_loads llm "Jane Roe" empty_world).1
               = Raise AttributeError) by (vm_compute; reflexivity).
  rewrite Hrun in He. exact He.
Defined.

(** ** Uploads and the analysis cache *)

Section UploadProperties.

Context {vector index_t : Type}.
Variable embed_content : list string -> list vector.
Variable index_upsert : index_t -> list (item vector) -> index_t.
Variable sha256_hexdigest : string -> string.
Variable py_hash : string -> Z.
Variable json_loads : string -> option json.

Lemma add_calls_nil (w : @world index_t) : add_calls w [] = w.
Proof. destruct w. unfold add_calls. simpl. now rewrite app_nil_r. Qed.

(** Classifying an upload never raises, leaves the tables alone and makes
    no analysis call; a positive verdict needs some extracted text. *)
Lemma classify_upload_run llm file (w : @world index_t) :
  exists b evs,
    classify_upload llm file w = (Ok b, add_calls w evs) /\
    Forall (fun e => is_analysis_call e = false) evs /\
    (b = true -> nonempty (strip (upload_text file)) = true).
Proof.
  unfold classify_upload.
  destruct (endswith (lower (filename file)) ".pdf"); cbn [andb];
    [destruct (nonempty (strip (upload_text file))) eqn:Htext|];
    try (exists false, []; rewrite add_calls_nil; repeat split;
         solve [constructor | discriminate]).
  unfold try_except, is_probable_resume.
  destruct (negb (nonempty (upload_text file)));
    [|destruct (str_len (upload_text file) <? 300);
      [|destruct (60000 <? str_len (upload_text file))]];
    try (exists false, []; rewrite add_calls_nil; repeat split;
         solve [constructor | discriminate]).
  unfold mbind, M_bind, mret, M_ret, record, lift.
  destruct (llm (ClassifyPrompt (text_for_llm (upload_text file)))) as [resp|].
  - repeat match goal with
           | |- context [if ?c then _ else _] => destruct c
           end;
      eexists _, [_]; (split; [reflexivity|]); split;
        try (repeat constructor); auto.
  - eexists _, [_]. split; [reflexivity|]. split; [repeat constructor | discriminate].
Qed.







(** An upload that is not classified as a resume consults nothing and
    analyses nothing. *)
Lemma upload_resume_not_resume llm file (w : @world index_t) :
  (classify_upload llm file w).1 = Ok false ->
  exists new_calls,
    upload_resume embed_content index_upsert sha256_hexdigest py_hash json_loads
      llm file w =
    (Ok {| r_file_id := uuid4 file; r_greeting := greeting_default;
           r_analysis := AStr msg_not_a_resume |},
     add_calls w new_calls) /\
    Forall (fun e => is_analysis_call e = false) new_calls.
Proof.
  intros Hvalid. unfold upload_resume, mbind, M_bind.
  destruct (classify_upload_run llm file w) as (b & evs & Hc & Hevs & _).
  rewrite Hc in Hvalid |- *. cbn [fst] in Hvalid. injection Hvalid as ->.
  exists evs. split; [reflexivity | exact Hevs].
Qed.


End UploadProperties.


(** ** Chat *)

Section ChatProperties.

Context {vector : Type}.
Variable embed_content : list string -> list vector.
Variable similarity : vector -> vector -> Q.

(** C3, as the code has it.  A chat whose file id no stored item carries
    is answered with one of the two fixed messages, not with an error, and
    the generative model is not called.  When the file id is not empty one
    model call is made all the same: the embedding of the user's message,
    which comes first and is the only one. *)
Theorem chat_unknown_file_id llm (payload : ChatRequest)
    (w : @world (list (item vector))) :
  (forall it, In it (index w) ->
     item_metadata it !! "file_id" <> Some (file_id payload)) ->
  exists msg new_calls,
    chat embed_content (pinecone_query similarity) llm payload w =
      (Ok msg, add_calls w new_calls) /\
    Forall (fun e => is_generate e = false) new_calls /\
    (nonempty (file_id payload) = false ->
       msg = msg_no_file_id /\ new_calls = []) /\
    (nonempty (file_id payload) = true ->
       msg = msg_no_resume /\
       exists rest, new_calls = EvEmbed [user_message payload] :: rest /\
                    Forall (fun e => is_model_call e = false) rest).
Proof.
  intros Habs. unfold chat.
  destruct (nonempty (file_id payload)) eqn:Hid; cbn [negb].
  2:{ exists msg_no_file_id, []. rewrite add_calls_nil.
      split; [reflexivity|]. split; [constructor|]. split; [auto | discriminate]. }
  unfold mbind, M_bind. rewrite retrieve_texts_run.
  destruct (embed_content [user_message payload]) as [|vec vecs].
  { exists msg_no_resume, [EvEmbed [user_message payload]].
    split; [reflexivity|]. split; [repeat constructor|].
    split; [discriminate|]. intros _. split; [reflexivity|].
    exists []. split; [reflexivity | constructor]. }
  cbn zeta. rewrite filter_or_none_file_id by assumption.
  rewrite (pinecone_query_absent similarity (index w) vec 5
             (build_filter ["resume_chunk"] (Some (file_id payload)))
             (file_id payload))
    by (auto using build_filter_file_id).
  cbn [andb texts_of is_nil].
  eexists msg_no_resume, [_; _].
  split; [reflexivity|]. split; [repeat constructor|].
  split; [discriminate|]. intros _. split; [reflexivity|].
  eexists [_]. split; [reflexivity | repeat constructor].
Qed.

End ChatProperties.

Lemma sample_world_no_A :
  forall it, In it (index sample_world) -> item_metadata it !! "file_id" <> Some "A".
Proof.
  intros it Hin. simpl in Hin.
  repeat (destruct Hin as [<-|Hin]; [vm_compute; congruence|]). destruct Hin.
Qed.

Lemma chat_unknown_file_id_witness :
  let payload := {| user_message := "hello"; file_id := "A" |} in
  (forall it, In it (index sample_world) ->
     item_metadata it !! "file_id" <> Some (file_id payload)) /\
  exists new_calls,
    sample_chat payload sample_world = (Ok msg_no_resume, add_calls sample_world new_calls) /\
    Forall (fun e => is_generate e = false) new_calls.
Proof.
  intros payload. split; [exact sample_world_no_A|].
  destruct (chat_unknown_file_id sample_embed sample_similarity sample_llm payload
              sample_world sample_world_no_A)
    as (msg & new_calls & Hrun & Hgen & _ & Hmsg).
  destruct (Hmsg eq_refl) as [-> _].
  exists new_calls. split; [exact Hrun | exact Hgen].
Defined.

(** C3 as stated fails: for a file id that was never uploaded the fixed
    message is returned, but the embedding model has been called for the
    user's message. *)
Lemma chat_unknown_file_id_counterexample :
  let payload := {| user_message := "hello"; file_id := "A" |} in
  (forall it, In it (index sample_world) ->
     item_metadata it !! "file_id" <> Some (file_id payload)) /\
  exists w',
    sample_chat payload sample_world = (Ok msg_no_resume, w') /\
    In (EvEmbed ["hello"]) (calls w') /\
    is_model_call (EvEmbed ["hello"]) = true.
Proof.
  intros payload. split; [exact sample_world_no_A|].
  eexists. split; [vm_compute; reflexivity|].
  split; [simpl; auto | reflexivity].
Qed.

(** ** Uploads never write under another file id *)

Section IndexContents.

Context {vector : Type}.
Variable embed_content : list string -> list vector.
Variable sha256_hexdigest : string -> string.
Variable py_hash : string -> Z.
Variable json_loads : string -> option json.

Lemma upsert_one_in (it x : item vector) idx :
  In x (upsert_one it idx) -> x = it \/ In x idx.
Proof.
  induction idx as [|old idx IH]; simpl.
  - intros [<-|[]]. now left.
  - destruct (String.eqb (item_id old) (item_id it)); simpl.
    + intros [<-|H]; auto.
    + intros [<-|H]; auto. destruct (IH H); auto.
Qed.

Lemma pinecone_upsert_in (x : item vector) items idx :
  In x (pinecone_upsert idx items) -> In x items \/ In x idx.
Proof.
  unfold pinecone_upsert. revert idx.
  induction items as [|it items IH]; simpl; intros idx H; [now right|].
  apply IH in H as [H|H]; [auto|].
  apply upsert_one_in in H as [->|H]; auto.
Qed.

Lemma resume_items_file_id fid (vectors : list vector) chunks it :
  In it (resume_items fid vectors chunks) ->
  item_metadata it !! "file_id" = Some fid.
Proof.
  unfold resume_items. intros H. apply list_elem_of_In in H.
  apply elem_of_lookup_imap in H as (i & vc & -> & _).
  cbn [item_metadata]. unfold chunk_metadata. apply lookup_insert_eq.
Qed.

(** Whatever an upload leaves in the index was there before or carries
    the identifier drawn for this upload. *)
Lemma upload_resume_index llm file res (w w' : @world (list (item vector))) :
  upload_resume embed_content pinecone_upsert sha256_hexdigest py_hash json_loads
    llm file w = (res, w') ->
  forall it, In it (index w') ->
    In it (index w) \/ item_metadata it !! "file_id" = Some (uuid4 file).
Proof.
  unfold upload_resume, mbind, M_bind.
  destruct (classify_upload_run llm file w) as (b & evs & -> & _ & _).
  destruct b.
  2:{ unfold mret, M_ret. intros H. injection H as <- <-. auto. }
  assert (Hidx : exists w1,
    index_chunks embed_content pinecone_upsert (uuid4 file) (upload_text file)
      (add_calls w evs) = (Ok tt, w1) /\
    forall it, In it (index w1) ->
      In it (index w) \/ item_metadata it !! "file_id" = Some (uuid4 file)).
  { unfold index_chunks, embed_texts, upsert_vectors, mbind, M_bind, mret, M_ret,
      record.
    destruct (chunk_text (upload_text file)) as [|c cs]; cbn [is_nil].
    { eexists. split; [reflexivity|]. auto. }
    destruct (is_nil (embed_content (c :: cs))).
    { eexists. split; [reflexivity|]. auto. }
    destruct (resume_items (uuid4 file) (embed_content (c :: cs)) (c :: cs))
      as [|i0 items] eqn:Hitems.
    { eexists. split; [reflexivity|]. auto. }
    eexists. split; [reflexivity|]. cbn [index add_calls]. intros it Hin.
    apply pinecone_upsert_in in Hin as [Hin|Hin]; [right|now left].
    rewrite <- Hitems in Hin. eapply resume_items_file_id, Hin. }
  destruct Hidx as (w1 & -> & Hw1).
  unfold save_user_name at 1.
  match goal with
  | |- context [cached_or_analyze _ _ _ _ _ ?w2] =>
      assert (Hkeep : forall r w3,
        cached_or_analyze py_hash json_loads llm (upload_text file)
          (resume_hash_of sha256_hexdigest (upload_text file)) w2 = (r, w3) ->
        index w3 = index w1);
      [|destruct (cached_or_analyze py_hash json_loads llm (upload_text file)
                    (resume_hash_of sha256_hexdigest (upload_text file)) w2)
          as [[a|e] w3] eqn:Hstep]
  end.
  { intros r w3.
    unfold cached_or_analyze, get_resume_analysis, save_resume_analysis,
      mbind, M_bind, mret, M_ret, record, get_world.
    destruct (resume_hash_of sha256_hexdigest (upload_text file)) as [h|];
      cbn [resumes add_calls fst].
    - destruct (resumes w1 !! h) as [[a0 m0]|]; cbn [fst].
      + intros H. now injection H as <- <-.
      + match goal with
        | |- context [analyze_resume _ _ _ _ ?w4] =>
            destruct (analyze_resume_frame py_hash json_loads llm
                        (upload_text file) w4)
              as (res' & w5 & evs' & Hrun & _ & _ & _ & Hi)
        end.
        rewrite Hrun. destruct res'; intros H; injection H as <- <-; exact Hi.
    - match goal with
      | |- context [analyze_resume _ _ _ _ ?w4] =>
          destruct (analyze_resume_frame py_hash json_loads llm
                      (upload_text file) w4)
            as (res' & w5 & evs' & Hrun & _ & _ & _ & Hi)
      end.
      rewrite Hrun. destruct res'; intros H; injection H as <- <-; exact Hi. }
  - unfold mret, M_ret. intros H. injection H as <- <-.
    rewrite (Hkeep _ _ eq_refl). exact Hw1.
  - intros H. injection H as <- <-. rewrite (Hkeep _ _ eq_refl). exact Hw1.
Qed.

(** So a file id that no upload was given stays absent from the index. *)
Lemma upload_resume_keeps_absent llm file res (A : string)
    (w w' : @world (list (item vector))) :
  upload_resume embed_content pinecone_upsert sha256_hexdigest py_hash json_loads
    llm file w = (res, w') ->
  uuid4 file <> A ->
  (forall it, In it (index w) -> item_metadata it !! "file_id" <> Some A) ->
  forall it, In it (index w') -> item_metadata it !! "file_id" <> Some A.
Proof.
  intros Hrun Hne Habs it Hin.
  destruct (upload_resume_index llm file res w w' Hrun it Hin) as [Hold|Hnew].
  - now apply Habs.
  - rewrite Hnew. congruence.
Qed.

End IndexContents.
